(** * SecureShare backend: the one-time secret store of [backend/app.py]

    A shallow embedding of the two Flask handlers [store_secret] and
    [retrieve_secret] over the module-level dictionary [secrets_store],
    and the properties of single delivery that the specification states
    about them. *)

From Stdlib Require Import ZArith String Ascii List SpecFloat.
From stdpp Require Import base option list gmap strings pretty.

Open Scope string_scope.
Open Scope nat_scope.
Open Scope list_scope.

Set Warnings "-register-all".

(** ** Python values

    [request.get_json()] hands the handler whatever the [json] module
    parsed: [None], a [bool], an [int], a [float], a [str], a [list] or a
    [dict] with string keys.  A float is kept in the IEEE-754 view of the
    Standard Library, since its truth value is "non zero". *)

Inductive pyobj : Type :=
| PyNone
| PyBool (b : bool)
| PyInt (n : Z)
| PyFloat (f : spec_float)
| PyStr (s : string)
| PyList (l : list pyobj)
| PyDict (d : gmap string pyobj).

(** Exceptions a handler body can raise. *)
Inductive pyexn : Type :=
| TypeError (msg : string)
| KeyError (key : string).

Inductive outcome (A : Type) : Type :=
| Return (a : A)
| Raise (e : pyexn).
Arguments Return {A} a.
Arguments Raise {A} e.

(** [bool(x)]: the truth value Python's [not] and [if] test. *)
Definition truthy (x : pyobj) : bool :=
  match x with
  | PyNone => false
  | PyBool b => b
  | PyInt n => negb (n =? 0)%Z
  | PyFloat (S754_zero _) => false
  | PyFloat _ => true
  | PyStr s => negb (String.length s =? 0)%nat
  | PyList l => negb (length l =? 0)%nat
  | PyDict d => negb (size d =? 0)%nat
  end.

(** [needle in hay] on two strings: substring search. *)
Fixpoint str_contains (needle hay : string) : bool :=
  String.prefix needle hay
  || match hay with
     | EmptyString => false
     | String _ rest => str_contains needle rest
     end.

(** [key == x] for a string [key]: only an equal [str] compares equal. *)
Definition str_eq_obj (key : string) (x : pyobj) : bool :=
  match x with
  | PyStr s => String.eqb key s
  | _ => false
  end.

(** [key in x] for a string [key] ([x.__contains__], or iteration). *)
Definition py_in (key : string) (x : pyobj) : outcome bool :=
  match x with
  | PyDict d => Return (bool_decide (is_Some (d !! key)))
  | PyList l => Return (existsb (str_eq_obj key) l)
  | PyStr s => Return (str_contains key s)
  | PyNone => Raise (TypeError "argument of type 'NoneType' is not iterable")
  | PyBool _ => Raise (TypeError "argument of type 'bool' is not iterable")
  | PyInt _ => Raise (TypeError "argument of type 'int' is not iterable")
  | PyFloat _ => Raise (TypeError "argument of type 'float' is not iterable")
  end.

(** [x[key]] for a string [key]. *)
Definition py_getitem (x : pyobj) (key : string) : outcome pyobj :=
  match x with
  | PyDict d =>
      match d !! key with
      | Some v => Return v
      | None => Raise (KeyError key)
      end
  | PyList _ => Raise (TypeError "list indices must be integers or slices, not str")
  | PyStr _ => Raise (TypeError "string indices must be integers, not 'str'")
  | PyNone => Raise (TypeError "'NoneType' object is not subscriptable")
  | PyBool _ => Raise (TypeError "'bool' object is not subscriptable")
  | PyInt _ => Raise (TypeError "'int' object is not subscriptable")
  | PyFloat _ => Raise (TypeError "'float' object is not subscriptable")
  end.

(** ** The process state

    [secrets_store] is the module-level dictionary.  [uuid.uuid4()] reads
    the operating system's entropy; the identifier the [n]-th call of the
    process returns is [uuid4 n], for a generator [uuid4] the environment
    fixes, and [uuid_calls] counts the calls made so far. *)

Record world : Type := World {
  secrets_store : gmap string pyobj;
  uuid_calls : nat
}.

Definition initial : world := World ∅ 0.

(** A view function returns [jsonify(body), status]. *)
Record response : Type := Response {
  body : pyobj;
  status : Z
}.

Definition jsonify (x : pyobj) : pyobj := x.

(** ** Handler monad: state, and exceptions that keep the state *)

Definition handler (A : Type) : Type := world → outcome A * world.

Definition ret {A} (a : A) : handler A := λ w, (Return a, w).

Definition bind {A B} (m : handler A) (k : A → handler B) : handler B :=
  λ w, match m w with
       | (Return a, w') => k a w'
       | (Raise e, w') => (Raise e, w')
       end.

Definition lift {A} (o : outcome A) : handler A := λ w, (o, w).

Notation "'do' x <- m ; k" := (bind m (λ x, k))
  (at level 10, x name, m at level 100, k at level 200, only parsing).

Section Handlers.

Variable uuid4 : nat → string.

(** [str(uuid.uuid4())] *)
Definition str_uuid4 : handler string :=
  λ w, (Return (uuid4 (uuid_calls w)),
        World (secrets_store w) (S (uuid_calls w))).

(** [secrets_store[key] = value] *)
Definition store_setitem (key : string) (value : pyobj) : handler unit :=
  λ w, (Return tt, World (<[key := value]> (secrets_store w)) (uuid_calls w)).

(** [secrets_store.pop(key, default)] *)
Definition store_pop (key : string) (default : pyobj) : handler pyobj :=
  λ w, match secrets_store w !! key with
       | Some v => (Return v, World (delete key (secrets_store w)) (uuid_calls w))
       | None => (Return default, w)
       end.

Definition error_required : pyobj :=
  PyDict {[ "error" := PyStr "encrypted_data is required" ]}.

Definition error_not_found : pyobj :=
  PyDict {[ "error" := PyStr "Secret not found. It may have been viewed already." ]}.

(** [not data or 'encrypted_data' not in data], with [or] short-circuiting. *)
Definition body_rejected (data : pyobj) : handler bool :=
  if negb (truthy data) then ret true
  else do present <- lift (py_in "encrypted_data" data); ret (negb present).

(** POST /api/secret *)
Definition store_secret (data : pyobj) : handler response :=
  do rejected <- body_rejected data;
  if rejected then ret (Response (jsonify error_required) 400)
  else
    do secret_id <- str_uuid4;
    do payload <- lift (py_getitem data "encrypted_data");
    do _ <- store_setitem secret_id (PyDict {[ "encrypted_data" := payload ]});
    ret (Response (jsonify (PyDict {[ "secret_id" := PyStr secret_id ]})) 201).

(** GET /api/secret/<secret_id> *)
Definition retrieve_secret (secret_id : string) : handler response :=
  do secret <- store_pop secret_id PyNone;
  if truthy secret then ret (Response (jsonify secret) 200)
  else ret (Response (jsonify error_not_found) 404).

End Handlers.

Arguments str_uuid4 uuid4 w /.
Arguments store_setitem key value w /.
Arguments store_pop key default w /.

(** ** The server: one request after the other

    Flask answers an exception that escapes a view with a 500 page and
    goes on serving with the dictionary as the view left it. *)

Inductive request : Type :=
| POST (data : pyobj)
| GET (secret_id : string).

Definition handle (uuid4 : nat → string) (r : request) : handler response :=
  match r with
  | POST data => store_secret uuid4 data
  | GET secret_id => retrieve_secret secret_id
  end.

Fixpoint serve (uuid4 : nat → string) (reqs : list request) (w : world)
  : list (outcome response) * world :=
  match reqs with
  | [] => ([], w)
  | r :: rest =>
      let '(o, w1) := handle uuid4 r w in
      let '(os, w2) := serve uuid4 rest w1 in
      (o :: os, w2)
  end.

(** The request body [{"encrypted_data": payload}] and the two success
    responses. *)
Definition submission (payload : pyobj) : pyobj :=
  PyDict {[ "encrypted_data" := payload ]}.

Definition created (secret_id : string) : response :=
  Response (PyDict {[ "secret_id" := PyStr secret_id ]}) 201.

Definition delivered (payload : pyobj) : response :=
  Response (PyDict {[ "encrypted_data" := payload ]}) 200.

Definition invalid_payload : response := Response error_required 400.

Definition not_found : response := Response error_not_found 404.

(** A generator used to run the handlers on concrete inputs. *)
Definition sample_uuid4 (n : nat) : string := "id-" +:+ pretty n.

(** ** Vocabulary of the properties *)

(** Every way [store_secret] can end. *)
Inductive put_result (uuid4 : nat → string) (data : pyobj) (w : world)
  : outcome response * world → Prop :=
| put_accepted d payload :
    data = PyDict d →
    d !! "encrypted_data" = Some payload →
    put_result uuid4 data w
      (Return (created (uuid4 (uuid_calls w))),
       World (<[uuid4 (uuid_calls w) := submission payload]> (secrets_store w))
             (S (uuid_calls w)))
| put_rejected :
    put_result uuid4 data w (Return invalid_payload, w)
| put_raised_in e :
    put_result uuid4 data w (Raise e, w)
| put_raised_getitem e :
    put_result uuid4 data w (Raise e, World (secrets_store w) (S (uuid_calls w))).

(** The calls number [n] to [m - 1] of the generator do not return
    [secret_id]. *)
Definition not_reissued (uuid4 : nat → string) (n m : nat) (secret_id : string) : Prop :=
  ∀ k, n ≤ k < m → uuid4 k ≠ secret_id.

(** The first [m] calls of the generator return [m] different values. *)
Definition collision_free (uuid4 : nat → string) (m : nat) : Prop :=
  ∀ i j, i < j < m → uuid4 i ≠ uuid4 j.

(** The states of a run that starts with the empty dictionary. *)
Definition reachable (uuid4 : nat → string) (w : world) : Prop :=
  ∃ rs, (serve uuid4 rs initial).2 = w.

(** Every entry was written by [store_secret]: its key is an identifier
    the generator has returned, its value a one-field dictionary. *)
Definition stored_ok (uuid4 : nat → string) (w : world) : Prop :=
  ∀ secret_id v, secrets_store w !! secret_id = Some v →
    (∃ payload, v = submission payload)
    ∧ ∃ k, k < uuid_calls w ∧ uuid4 k = secret_id.

(** A request succeeded when it was answered 200 or 201. *)
Definition succeeded (o : outcome response) : bool :=
  match o with
  | Return r => (status r =? 200)%Z || (status r =? 201)%Z
  | Raise _ => false
  end.

(** The body carries no payload field: it is [null], or an object without
    the key ["encrypted_data"] (the empty object among them). *)
Definition field_missing (data : pyobj) : Prop :=
  match data with
  | PyNone => True
  | PyDict d => d !! "encrypted_data" = None
  | _ => False
  end.

(** A submission is turned down without effect: the 400 response, no call
    of the generator, the dictionary as it was. *)
Definition rejected_without_effect (uuid4 : nat → string) (data : pyobj)
    (w : world) : Prop :=
  store_secret uuid4 data w = (Return invalid_payload, w).

(** The state after ["a"] was stored and retrieved, and ["b"] stored. *)
Definition sample_world : world :=
  (serve sample_uuid4
     [POST (submission (PyStr "a")); GET "id-0"; POST (submission (PyStr "b"))]
     initial).2.

(** The field [key] of a response body. *)
Definition body_field (key : string) (r : response) : option pyobj :=
  match body r with
  | PyDict d => d !! key
  | _ => None
  end.

(** A body with an empty payload and a field nobody asked for. *)
Definition sample_body : pyobj :=
  PyDict {[ "encrypted_data" := PyStr ""; "note" := PyNone ]}.

(** What the history [rs] of a run says of an entry: [secret_id ↦ v] was
    stored by a submission of the run that was answered with
    [secret_id], and no later request of the run asked for [secret_id]. *)
Definition stored_not_retrieved (uuid4 : nat → string) (rs : list request)
    (secret_id : string) (v : pyobj) : Prop :=
  ∃ rs1 data payload rs2,
    rs = rs1 ++ POST data :: rs2
    ∧ (store_secret uuid4 data (serve uuid4 rs1 initial).2).1
      = Return (created secret_id)
    ∧ py_getitem data "encrypted_data" = Return payload
    ∧ v = submission payload
    ∧ GET secret_id ∉ rs2.

(** ** Threads that race for one secret

    Flask's server runs each request in a thread of its own.  A thread
    that runs [retrieve_secret] is at one of three points: before line 36,
    between line 36 and the [if] (with its local [secret]), or returned.
    The call [secrets_store.pop(secret_id, None)] is one step: CPython
    runs a dictionary method on a string key without giving up the
    interpreter lock.  A schedule names the thread that takes the next
    step. *)

Inductive thread : Type :=
| AtPop (secret_id : string)
| AtIf (secret : pyobj)
| Done (r : response).

Definition thread_step (t : thread) (w : world) : thread * world :=
  match t with
  | AtPop secret_id =>
      match store_pop secret_id PyNone w with
      | (Return secret, w') => (AtIf secret, w')
      | (Raise _, w') => (t, w')
      end
  | AtIf secret =>
      (Done (if truthy secret then Response (jsonify secret) 200
             else Response (jsonify error_not_found) 404), w)
  | Done _ => (t, w)
  end.

Definition sched_step (c : list thread * world) (i : nat) : list thread * world :=
  match c.1 !! i with
  | Some t => (<[i := (thread_step t c.2).1]> c.1, (thread_step t c.2).2)
  | None => c
  end.

Definition run_schedule (sched : list nat) (c : list thread * world)
  : list thread * world :=
  fold_left sched_step sched c.

(** The thread has the payload in hand, or has answered 200. *)
Definition observed_success (t : thread) : bool :=
  match t with
  | AtPop _ => false
  | AtIf secret => truthy secret
  | Done r => (status r =? 200)%Z
  end.

(** How far a thread is: 0, 1 or 2 steps. *)
Definition progress (t : thread) : nat :=
  match t with
  | AtPop _ => 0
  | AtIf _ => 1
  | Done _ => 2
  end.

(** The thread that got the secret, and a thread that did not. *)
Definition winner (v : pyobj) (t : thread) : Prop :=
  t = AtIf v ∨ t = Done (Response v 200).

Definition loser (secret_id : string) (t : thread) : Prop :=
  t = AtPop secret_id ∨ t = AtIf PyNone ∨ t = Done not_found.

(** While the secret is stored no thread has moved; once it is gone one
    thread holds it and the others hold nothing. *)
Definition race_inv (secret_id : string) (v : pyobj) (c : list thread * world)
  : Prop :=
  (secrets_store c.2 !! secret_id = Some v
   ∧ ∀ j t, c.1 !! j = Some t → t = AtPop secret_id)
  ∨ (secrets_store c.2 !! secret_id = None
     ∧ ∃ i t, c.1 !! i = Some t ∧ winner v t
              ∧ ∀ j t', j ≠ i → c.1 !! j = Some t' → loser secret_id t').

(** ** Vocabulary of the further properties *)

(** [needle] occurs in [hay]. *)
Definition substring_of (needle hay : string) : Prop :=
  ∃ pre post, hay = pre +:+ needle +:+ post.

(** The bodies without the field, read by their type: what is false for
    [not data], and the containers that do not hold ["encrypted_data"]
    (as a key of an object, an element of a list, a part of a string). *)
Definition body_has_no_field (data : pyobj) : Prop :=
  match data with
  | PyNone => True
  | PyBool b => b = false
  | PyInt n => n = 0%Z
  | PyFloat f => ∃ sign, f = S754_zero sign
  | PyStr s => ¬ substring_of "encrypted_data" s
  | PyList l => PyStr "encrypted_data" ∉ l
  | PyDict d => d !! "encrypted_data" = None
  end.

(** The bodies that get past [not data] and are not objects with the
    field: [true], a number that is not zero, and a list or a string that
    holds ["encrypted_data"]. *)
Definition body_breaks_handler (data : pyobj) : Prop :=
  match data with
  | PyNone => False
  | PyBool b => b = true
  | PyInt n => n ≠ 0%Z
  | PyFloat f => ∀ sign, f ≠ S754_zero sign
  | PyStr s => substring_of "encrypted_data" s
  | PyList l => PyStr "encrypted_data" ∈ l
  | PyDict d => False
  end.

(** The answers a client can see. *)
Inductive answer_shape (uuid4 : nat → string) : outcome response → Prop :=
| shape_created k : answer_shape uuid4 (Return (created (uuid4 k)))
| shape_invalid : answer_shape uuid4 (Return invalid_payload)
| shape_delivered payload : answer_shape uuid4 (Return (delivered payload))
| shape_not_found : answer_shape uuid4 (Return not_found)
| shape_error msg : answer_shape uuid4 (Raise (TypeError msg)).



(** A generator that returns the same identifier every time. *)
Definition stuck_uuid4 (n : nat) : string := "id-0".

(** * Properties *)

(** ** Equations of the two handlers *)

Lemma truthy_dict_lookup (d : gmap string pyobj) (k : string) (v : pyobj) :
  d !! k = Some v → truthy (PyDict d) = true.
Proof.
  intros Hk. simpl. apply negb_true_iff, Nat.eqb_neq.
  apply map_size_non_empty_iff. intros ->. by rewrite lookup_empty in Hk.
Qed.

Lemma truthy_submission (payload : pyobj) : truthy (submission payload) = true.
Proof. apply (truthy_dict_lookup _ "encrypted_data" payload), lookup_singleton_eq. Qed.

Section Equations.

Variable uuid4 : nat → string.

(** A body that is an object with the key is accepted, whatever the
    value under the key and whatever else the object holds. *)
Lemma store_secret_object (d : gmap string pyobj) (payload : pyobj) (w : world) :
  d !! "encrypted_data" = Some payload →
  store_secret uuid4 (PyDict d) w =
    (Return (created (uuid4 (uuid_calls w))),
     World (<[uuid4 (uuid_calls w) := submission payload]> (secrets_store w))
           (S (uuid_calls w))).
Proof.
  intros Hk. unfold store_secret, body_rejected, bind, lift, ret.
  rewrite (truthy_dict_lookup d _ _ Hk). cbn [negb py_in py_getitem].
  rewrite bool_decide_eq_true_2 by eauto.
  cbn [negb str_uuid4]. by rewrite Hk.
Qed.

Lemma store_secret_cases (data : pyobj) (w : world) :
  put_result uuid4 data w (store_secret uuid4 data w).
Proof.
  destruct data as [ | b | n | f | s | l | d ];
    unfold store_secret, body_rejected, bind, lift, ret; cbn [truthy py_in].
  - constructor.
  - destruct b; cbn; constructor.
  - destruct (n =? 0)%Z; cbn; constructor.
  - destruct f; cbn; constructor.
  - destruct (String.length s =? 0)%nat; cbn [negb]; [constructor |].
    destruct (str_contains _ s); cbn; constructor.
  - destruct (length l =? 0)%nat; cbn [negb]; [constructor |].
    destruct (existsb _ l); cbn; constructor.
  - destruct (size d =? 0)%nat; cbn [negb]; [constructor |].
    case_bool_decide as Hk; cbn [negb]; [| constructor].
    destruct Hk as [payload Hk]. cbn [str_uuid4 py_getitem]. rewrite Hk.
    cbn [store_setitem secrets_store uuid_calls]. by eapply put_accepted.
Qed.

Lemma retrieve_secret_absent (secret_id : string) (w : world) :
  secrets_store w !! secret_id = None →
  retrieve_secret secret_id w = (Return not_found, w).
Proof.
  intros Hid. unfold retrieve_secret, bind, ret. cbn [store_pop]. by rewrite Hid.
Qed.

Lemma retrieve_secret_present (secret_id : string) (secret : pyobj) (w : world) :
  secrets_store w !! secret_id = Some secret →
  truthy secret = true →
  retrieve_secret secret_id w =
    (Return (Response secret 200),
     World (delete secret_id (secrets_store w)) (uuid_calls w)).
Proof.
  intros Hid Ht. unfold retrieve_secret, bind, ret. cbn [store_pop].
  by rewrite Hid, Ht.
Qed.

End Equations.

(** ** One request, seen from one identifier *)

Lemma not_reissued_mono uuid4 n m n' m' secret_id :
  n ≤ n' → m' ≤ m →
  not_reissued uuid4 n m secret_id → not_reissued uuid4 n' m' secret_id.
Proof. intros Hn Hm H k Hk. apply H. lia. Qed.

Lemma collision_free_mono uuid4 m m' :
  m' ≤ m → collision_free uuid4 m → collision_free uuid4 m'.
Proof. intros Hm H i j Hij. apply H. lia. Qed.

Lemma collision_free_not_reissued uuid4 m k :
  collision_free uuid4 m → not_reissued uuid4 (S k) m (uuid4 k).
Proof. intros H j Hj Heq. apply (H k j); [lia | done]. Qed.

Section Steps.

Variable uuid4 : nat → string.

Lemma handle_calls_mono (r : request) (w : world) :
  uuid_calls w ≤ uuid_calls (handle uuid4 r w).2.
Proof.
  destruct r as [data | secret_id]; simpl.
  - destruct (store_secret_cases uuid4 data w); simpl; lia.
  - unfold retrieve_secret, bind, ret. cbn [store_pop].
    destruct (secrets_store w !! secret_id) as [v|]; cbn [truthy];
      [destruct (truthy v) |]; simpl; lia.
Qed.

(** A request other than [GET secret_id] leaves the entry of
    [secret_id] alone, unless it makes the generator return
    [secret_id]. *)
Lemma handle_frame (r : request) (w : world) (secret_id : string) :
  r ≠ GET secret_id →
  not_reissued uuid4 (uuid_calls w) (uuid_calls (handle uuid4 r w).2) secret_id →
  secrets_store (handle uuid4 r w).2 !! secret_id = secrets_store w !! secret_id.
Proof.
  intros Hr. destruct r as [data | other]; simpl.
  - destruct (store_secret_cases uuid4 data w); simpl; try done.
    intros Hgen. rewrite lookup_insert_ne; [done |]. apply Hgen. lia.
  - intros _. assert (other ≠ secret_id) by congruence.
    unfold retrieve_secret, bind, ret. cbn [store_pop].
    destruct (secrets_store w !! other) as [v|]; cbn [truthy];
      [destruct (truthy v) |]; simpl; try done; by rewrite lookup_delete_ne.
Qed.

(** [GET secret_id] on an identifier that is not stored. *)
Lemma handle_get_absent (w : world) (secret_id : string) :
  secrets_store w !! secret_id = None →
  handle uuid4 (GET secret_id) w = (Return not_found, w).
Proof. apply retrieve_secret_absent. Qed.

Lemma request_is_get (r : request) (secret_id : string) :
  r = GET secret_id ∨ r ≠ GET secret_id.
Proof.
  destruct r as [data | other]; [by right |].
  destruct (decide (other = secret_id)) as [-> |]; [by left | right; congruence].
Qed.

Lemma serve_cons (r : request) (rs : list request) (w : world) :
  serve uuid4 (r :: rs) w =
    ((handle uuid4 r w).1 :: (serve uuid4 rs (handle uuid4 r w).2).1,
     (serve uuid4 rs (handle uuid4 r w).2).2).
Proof.
  simpl. destruct (handle uuid4 r w) as [o w1]. simpl.
  by destruct (serve uuid4 rs w1).
Qed.

Lemma serve_app (rs1 rs2 : list request) (w : world) :
  serve uuid4 (rs1 ++ rs2) w =
    ((serve uuid4 rs1 w).1 ++ (serve uuid4 rs2 (serve uuid4 rs1 w).2).1,
     (serve uuid4 rs2 (serve uuid4 rs1 w).2).2).
Proof.
  revert w. induction rs1 as [| r rs1 IH]; intros w.
  - simpl. by destruct (serve uuid4 rs2 w).
  - rewrite <- app_comm_cons, !serve_cons, IH. done.
Qed.

Lemma serve_length (rs : list request) (w : world) :
  length (serve uuid4 rs w).1 = length rs.
Proof.
  revert w. induction rs as [| r rs IH]; intros w; [done |].
  rewrite serve_cons. simpl. by rewrite IH.
Qed.

Lemma serve_calls_mono (rs : list request) (w : world) :
  uuid_calls w ≤ uuid_calls (serve uuid4 rs w).2.
Proof.
  revert w. induction rs as [| r rs IH]; intros w; [done |].
  rewrite serve_cons. simpl.
  etrans; [apply (handle_calls_mono r w) | apply IH].
Qed.

(** Requests that never ask for [secret_id] keep its entry. *)
Lemma serve_frame (rs : list request) (w : world) (secret_id : string) :
  GET secret_id ∉ rs →
  not_reissued uuid4 (uuid_calls w) (uuid_calls (serve uuid4 rs w).2) secret_id →
  secrets_store (serve uuid4 rs w).2 !! secret_id = secrets_store w !! secret_id.
Proof.
  revert w. induction rs as [| r rs IH]; intros w Hrs; [done |].
  rewrite serve_cons. simpl. intros Hgen.
  apply not_elem_of_cons in Hrs as [Hr Hrs].
  pose proof (handle_calls_mono r w) as Hstep.
  pose proof (serve_calls_mono rs (handle uuid4 r w).2) as Hrest.
  rewrite IH; [| done |].
  - apply handle_frame; [done |]. by eapply not_reissued_mono; [| | exact Hgen].
  - by eapply not_reissued_mono; [| | exact Hgen].
Qed.

(** Once [secret_id] is gone it stays gone, and every request for it is
    answered with the 404 response. *)
Lemma serve_absent (rs : list request) (w : world) (secret_id : string) :
  secrets_store w !! secret_id = None →
  not_reissued uuid4 (uuid_calls w) (uuid_calls (serve uuid4 rs w).2) secret_id →
  secrets_store (serve uuid4 rs w).2 !! secret_id = None
  ∧ ∀ i, rs !! i = Some (GET secret_id) →
         (serve uuid4 rs w).1 !! i = Some (Return not_found).
Proof.
  revert w. induction rs as [| r rs IH]; intros w Hid; [done |].
  rewrite serve_cons. simpl. intros Hgen.
  pose proof (handle_calls_mono r w) as Hstep.
  pose proof (serve_calls_mono rs (handle uuid4 r w).2) as Hrest.
  assert (secrets_store (handle uuid4 r w).2 !! secret_id = None
          ∧ (r = GET secret_id → (handle uuid4 r w).1 = Return not_found))
    as [Hid' Hr].
  { destruct (request_is_get r secret_id) as [-> | Hne].
    - by rewrite handle_get_absent.
    - split; [| done]. rewrite handle_frame; [done .. |].
      by eapply not_reissued_mono; [| | exact Hgen]. }
  destruct (IH (handle uuid4 r w).2 Hid') as [Hend Hrs].
  { by eapply not_reissued_mono; [| | exact Hgen]. }
  split; [done |]. intros [| i] Hi; simpl in *.
  - f_equal. apply Hr. congruence.
  - by apply Hrs.
Qed.

End Steps.

(** The sample generator never repeats itself. *)
Lemma sample_uuid4_inj (n m : nat) : sample_uuid4 n = sample_uuid4 m → n = m.
Proof.
  unfold sample_uuid4. intros H.
  apply (inj (String.app "id-")) in H. by apply (inj pretty) in H.
Qed.

Lemma sample_not_reissued (n m k : nat) :
  k < n → not_reissued sample_uuid4 n m (sample_uuid4 k).
Proof. intros Hkn j Hj Heq. apply sample_uuid4_inj in Heq. lia. Qed.

Lemma sample_collision_free (m : nat) : collision_free sample_uuid4 m.
Proof. intros i j Hij Heq. apply sample_uuid4_inj in Heq. lia. Qed.

(** ** Single delivery *)

(** C1. Single delivery, sequential: when [POST] of an object that holds
    [payload] under ["encrypted_data"] is answered with the identifier
    [secret_id], then in every sequence of later requests the first
    [GET secret_id] is answered 200 with the payload, and every
    [GET secret_id] after it is answered with the 404 response. The
    identifier is the generator's next value; the later calls made during
    the run are assumed not to return it a second time. *)
Theorem single_delivery (uuid4 : nat → string) (w : world) (d : gmap string pyobj)
    (payload : pyobj) (rs1 rs2 : list request) :
  let secret_id := uuid4 (uuid_calls w) in
  let run := serve uuid4 (POST (PyDict d) :: rs1 ++ GET secret_id :: rs2) w in
  d !! "encrypted_data" = Some payload →
  not_reissued uuid4 (S (uuid_calls w)) (uuid_calls run.2) secret_id →
  GET secret_id ∉ rs1 →
  ∃ os1 os2,
    run.1 = Return (created secret_id) :: os1 ++ Return (delivered payload) :: os2
    ∧ length os1 = length rs1
    ∧ (∀ i, rs2 !! i = Some (GET secret_id) → os2 !! i = Some (Return not_found))
    ∧ secrets_store run.2 !! secret_id = None.
Proof.
  intros secret_id run Hd. subst run.
  rewrite serve_cons, serve_app, serve_cons. cbn [handle].
  rewrite (store_secret_object uuid4 d payload w Hd). cbn [fst snd].
  fold secret_id.
  set (w1 := World (<[secret_id := submission payload]> (secrets_store w))
                   (S (uuid_calls w))).
  intros Hgen Hrs1.
  pose proof (serve_calls_mono uuid4 rs1 w1) as Hmono1.
  assert (secrets_store (serve uuid4 rs1 w1).2 !! secret_id = Some (submission payload))
    as Hkept.
  { rewrite serve_frame; [apply lookup_insert_eq | done |].
    eapply not_reissued_mono; [| | exact Hgen]; [done |].
    etrans; [apply (handle_calls_mono uuid4 (GET secret_id)) | apply serve_calls_mono]. }
  revert Hgen.
  rewrite (retrieve_secret_present secret_id _ _ Hkept (truthy_submission payload)).
  cbn [fst snd].
  set (w2 := World (delete secret_id (secrets_store (serve uuid4 rs1 w1).2))
                   (uuid_calls (serve uuid4 rs1 w1).2)).
  intros Hgen.
  destruct (serve_absent uuid4 rs2 w2 secret_id) as [Hend Hrs2].
  { apply lookup_delete_eq. }
  { eapply not_reissued_mono; [| | exact Hgen]; done. }
  exists (serve uuid4 rs1 w1).1, (serve uuid4 rs2 w2).1.
  split; [done |]. split; [apply serve_length |]. done.
Qed.

Lemma single_delivery_witness :
  ∃ os1 os2,
    (serve sample_uuid4
      (POST (submission (PyStr "hello-cipher"))
         :: [GET "id-7"; POST (submission (PyStr "b"))]
         ++ GET "id-0" :: [GET "id-0"; POST PyNone; GET "id-0"]) initial).1
      = Return (created "id-0") :: os1
           ++ Return (delivered (PyStr "hello-cipher")) :: os2
    ∧ length os1 = 2
    ∧ (∀ i, [GET "id-0"; POST PyNone; GET "id-0"] !! i = Some (GET "id-0") →
            os2 !! i = Some (Return not_found))
    ∧ secrets_store
        (serve sample_uuid4
          (POST (submission (PyStr "hello-cipher"))
             :: [GET "id-7"; POST (submission (PyStr "b"))]
             ++ GET "id-0" :: [GET "id-0"; POST PyNone; GET "id-0"]) initial).2
        !! "id-0" = None.
Proof.
  apply (single_delivery sample_uuid4 initial
           {[ "encrypted_data" := PyStr "hello-cipher" ]} (PyStr "hello-cipher")
           [GET "id-7"; POST (submission (PyStr "b"))]
           [GET "id-0"; POST PyNone; GET "id-0"]).
  - reflexivity.
  - apply (sample_not_reissued 1 _ 0). lia.
  - intros Hin. repeat (apply elem_of_cons in Hin as [Hin | Hin]; [discriminate |]).
    by apply elem_of_nil in Hin.
Defined.

(** ** What the dictionary holds in a state the server can reach *)

Section Invariant.

Variable uuid4 : nat → string.

Lemma stored_ok_initial : stored_ok uuid4 initial.
Proof. intros secret_id v Hv. simpl in Hv. by rewrite lookup_empty in Hv. Qed.

Lemma handle_stored_ok (r : request) (w : world) :
  stored_ok uuid4 w → stored_ok uuid4 (handle uuid4 r w).2.
Proof.
  intros Hw. destruct r as [data | other]; simpl.
  - destruct (store_secret_cases uuid4 data w) as [d payload -> Hd | | |];
      simpl; try done.
    + intros secret_id v. simpl.
      destruct (decide (uuid4 (uuid_calls w) = secret_id)) as [<- | Hne].
      * rewrite lookup_insert_eq. intros [= <-].
        split; [by exists payload |]. exists (uuid_calls w). split; [lia | done].
      * rewrite lookup_insert_ne by done. intros Hv.
        destruct (Hw _ _ Hv) as [Hp (k & Hk & Hid)].
        split; [done |]. exists k. split; [lia | done].
    + intros secret_id v Hv. simpl in *.
      destruct (Hw _ _ Hv) as [Hp (k & Hk & Hid)].
      split; [done |]. exists k. split; [lia | done].
  - unfold retrieve_secret, bind, ret. cbn [store_pop].
    destruct (secrets_store w !! other) as [v|] eqn:Hother; cbn [truthy]; [| done].
    assert (stored_ok uuid4
              (World (delete other (secrets_store w)) (uuid_calls w))) as Hdel.
    { intros secret_id v' Hv'. simpl in *.
      apply lookup_delete_Some in Hv' as [_ Hv']. by apply Hw. }
    by destruct (truthy v).
Qed.

Lemma serve_stored_ok (rs : list request) (w : world) :
  stored_ok uuid4 w → stored_ok uuid4 (serve uuid4 rs w).2.
Proof.
  revert w. induction rs as [| r rs IH]; intros w Hw; [done |].
  rewrite serve_cons. simpl. by apply IH, handle_stored_ok.
Qed.

Lemma reachable_stored_ok (w : world) : reachable uuid4 w → stored_ok uuid4 w.
Proof. intros [rs <-]. apply serve_stored_ok, stored_ok_initial. Qed.

Lemma reachable_step (r : request) (w : world) :
  reachable uuid4 w → reachable uuid4 (handle uuid4 r w).2.
Proof.
  intros [rs <-]. exists (rs ++ [r]). rewrite serve_app. simpl.
  by destruct (handle uuid4 r (serve uuid4 rs initial).2).
Qed.

(** In a reachable state a stored value is true for [if secret:]. *)
Lemma stored_ok_truthy (w : world) (secret_id : string) (v : pyobj) :
  stored_ok uuid4 w → secrets_store w !! secret_id = Some v → truthy v = true.
Proof.
  intros Hw Hv. destruct (Hw _ _ Hv) as [[payload ->] _].
  apply truthy_submission.
Qed.

(** So [retrieve_secret] fails exactly on the identifiers not stored. *)
Lemma retrieve_secret_cases (secret_id : string) (w : world) :
  stored_ok uuid4 w →
  (secrets_store w !! secret_id = None
   ∧ retrieve_secret secret_id w = (Return not_found, w))
  ∨ (∃ payload,
       secrets_store w !! secret_id = Some (submission payload)
       ∧ retrieve_secret secret_id w =
           (Return (delivered payload),
            World (delete secret_id (secrets_store w)) (uuid_calls w))).
Proof.
  intros Hw. destruct (secrets_store w !! secret_id) as [v|] eqn:Hv.
  - right. destruct (Hw _ _ Hv) as [[payload ->] _]. exists payload.
    split; [done |].
    by rewrite (retrieve_secret_present _ _ _ Hv (truthy_submission payload)).
  - left. split; [done |]. by apply retrieve_secret_absent.
Qed.

End Invariant.

(** ** Rejected submissions *)

(** C2, as stated, fails: an empty string under ["encrypted_data"] is
    accepted, an identifier is generated and the dictionary grows. *)
Lemma empty_payload_not_rejected :
  store_secret sample_uuid4 (submission (PyStr "")) initial
    = (Return (created "id-0"), World {[ "id-0" := submission (PyStr "") ]} 1)
  ∧ ¬ rejected_without_effect sample_uuid4 (submission (PyStr "")) initial.
Proof.
  assert (store_secret sample_uuid4 (submission (PyStr "")) initial
          = (Return (created "id-0"), World {[ "id-0" := submission (PyStr "") ]} 1))
    as Hrun by (vm_compute; reflexivity).
  split; [exact Hrun |].
  unfold rejected_without_effect. rewrite Hrun. discriminate.
Qed.

(** C2, amended. A submission whose payload field is missing (a [null]
    body, or an object without the key ["encrypted_data"]) is answered
    400 with the message "encrypted_data is required"; no identifier is
    generated and the dictionary is unchanged. *)
Theorem missing_field_rejected (uuid4 : nat → string) (data : pyobj) (w : world) :
  field_missing data →
  store_secret uuid4 data w = (Return invalid_payload, w).
Proof.
  destruct data as [ | b | n | f | s | l | d ]; simpl; try done.
  intros Hd. unfold store_secret, body_rejected, bind, lift, ret. cbn [truthy py_in].
  destruct (size d =? 0); cbn [negb]; [done |].
  rewrite bool_decide_eq_false_2; [done |].
  rewrite Hd. by intros [v Hv].
Qed.

Lemma missing_field_rejected_witness :
  store_secret sample_uuid4 (PyDict {[ "data" := PyStr "c2VjcmV0" ]}) initial
    = (Return invalid_payload, initial).
Proof.
  apply (missing_field_rejected sample_uuid4 (PyDict {[ "data" := PyStr "c2VjcmV0" ]}) initial).
  reflexivity.
Defined.

(** C10. The guard of [store_secret] does not cover every JSON body. A
    list that holds the string ["encrypted_data"] passes the membership
    test and the subscript raises [TypeError], after an identifier was
    generated; a non-zero number (or [true]) makes the membership test
    itself raise; a string that contains the key raises at the subscript. *)
Theorem store_secret_raises (uuid4 : nat → string) (w : world) :
  store_secret uuid4 (PyList [PyStr "encrypted_data"]) w
    = (Raise (TypeError "list indices must be integers or slices, not str"),
       World (secrets_store w) (S (uuid_calls w)))
  ∧ store_secret uuid4 (PyInt 5) w
    = (Raise (TypeError "argument of type 'int' is not iterable"), w)
  ∧ store_secret uuid4 (PyBool true) w
    = (Raise (TypeError "argument of type 'bool' is not iterable"), w)
  ∧ store_secret uuid4 (PyStr "my encrypted_data") w
    = (Raise (TypeError "string indices must be integers, not 'str'"),
       World (secrets_store w) (S (uuid_calls w))).
Proof. done. Qed.

(** ** Failed requests *)

Section Failures.

Variable uuid4 : nat → string.

(** A submission that is not answered 201 leaves the dictionary alone
    (an exception at the subscript has used up an identifier, nothing
    more). *)
Lemma store_secret_failed (data : pyobj) (w : world) :
  succeeded (store_secret uuid4 data w).1 = false →
  secrets_store (store_secret uuid4 data w).2 = secrets_store w.
Proof. by destruct (store_secret_cases uuid4 data w). Qed.

(** A retrieval that is not answered 200 was answered with the 404
    response, in whatever state. *)
Lemma retrieve_secret_failed (secret_id : string) (w : world) :
  succeeded (retrieve_secret secret_id w).1 = false →
  (retrieve_secret secret_id w).1 = Return not_found.
Proof.
  unfold retrieve_secret, bind, ret. cbn [store_pop].
  destruct (secrets_store w !! secret_id) as [v|]; cbn [truthy]; [| done].
  by destruct (truthy v).
Qed.

Lemma handle_failed (r : request) (w : world) :
  stored_ok uuid4 w →
  succeeded (handle uuid4 r w).1 = false →
  secrets_store (handle uuid4 r w).2 = secrets_store w.
Proof.
  intros Hw. destruct r as [data | secret_id]; simpl.
  - apply store_secret_failed.
  - destruct (retrieve_secret_cases uuid4 secret_id w Hw)
      as [[_ ->] | (payload & _ & ->)]; done.
Qed.

End Failures.

(** C3. Failure atomicity. A retrieval of an identifier that is not in the
    dictionary is answered with the 404 response and the state after it is
    the state before it; and in every state the server can reach, a
    request (submission or retrieval) that does not succeed leaves the
    dictionary as it was. *)
Theorem failure_atomicity (uuid4 : nat → string) (w : world) (secret_id : string)
    (r : request) :
  (secrets_store w !! secret_id = None →
   retrieve_secret secret_id w = (Return not_found, w))
  ∧ (reachable uuid4 w →
     succeeded (handle uuid4 r w).1 = false →
     secrets_store (handle uuid4 r w).2 = secrets_store w).
Proof.
  split.
  - apply retrieve_secret_absent.
  - intros Hw. by apply handle_failed, reachable_stored_ok.
Qed.

Lemma failure_atomicity_witness :
  retrieve_secret "id-0" sample_world = (Return not_found, sample_world)
  ∧ secrets_store (handle sample_uuid4 (POST (PyDict ∅)) sample_world).2
    = secrets_store sample_world.
Proof.
  destruct (failure_atomicity sample_uuid4 sample_world "id-0" (POST (PyDict ∅)))
    as [Htake Hput].
  split.
  - apply Htake. reflexivity.
  - apply Hput; [| reflexivity]. eexists. reflexivity.
Defined.

(** C7. The two failures look alike. Two retrievals that fail, in whatever
    states and for whatever identifiers (one never issued, the other
    already retrieved), are answered with the same response: status 404
    and the one message "Secret not found. It may have been viewed
    already." *)
Theorem not_found_indistinguishable (w1 w2 : world) (id1 id2 : string) :
  succeeded (retrieve_secret id1 w1).1 = false →
  succeeded (retrieve_secret id2 w2).1 = false →
  (retrieve_secret id1 w1).1 = (retrieve_secret id2 w2).1
  ∧ (retrieve_secret id1 w1).1 = Return not_found.
Proof.
  intros H1 H2.
  rewrite (retrieve_secret_failed id1 w1 H1), (retrieve_secret_failed id2 w2 H2).
  done.
Qed.

Lemma not_found_indistinguishable_witness :
  (retrieve_secret "not-a-real-id" sample_world).1
    = (retrieve_secret "id-0" sample_world).1
  ∧ (retrieve_secret "not-a-real-id" sample_world).1 = Return not_found.
Proof.
  apply (not_found_indistinguishable sample_world sample_world "not-a-real-id" "id-0");
    reflexivity.
Defined.

(** ** Submissions that are accepted *)

Lemma Return_inj {A} (a b : A) : Return a = Return b → a = b.
Proof. congruence. Qed.


Lemma created_inj (id1 id2 : string) : created id1 = created id2 → id1 = id2.
Proof.
  intros H. apply (f_equal (body_field "secret_id")) in H.
  unfold body_field, created in H. cbn [body] in H.
  rewrite !lookup_singleton_eq in H. congruence.
Qed.

(** C9. Only the presence of the key is checked. A body that is an object
    with the key ["encrypted_data"] is answered 201 whatever the value
    under the key (the empty string and [null] among them); the value is
    stored as it is, and a retrieval of the returned identifier, right
    away or after other requests that neither ask for it nor make the
    generator return it again, is answered 200 with exactly that value. *)
Theorem key_presence_only (uuid4 : nat → string) (w : world) (d : gmap string pyobj)
    (value : pyobj) (rs : list request) :
  let secret_id := uuid4 (uuid_calls w) in
  let w1 := (store_secret uuid4 (PyDict d) w).2 in
  d !! "encrypted_data" = Some value →
  (store_secret uuid4 (PyDict d) w).1 = Return (created secret_id)
  ∧ secrets_store w1 !! secret_id = Some (PyDict {[ "encrypted_data" := value ]})
  ∧ (retrieve_secret secret_id w1).1 = Return (delivered value)
  ∧ (GET secret_id ∉ rs →
     not_reissued uuid4 (uuid_calls w1) (uuid_calls (serve uuid4 rs w1).2) secret_id →
     (retrieve_secret secret_id (serve uuid4 rs w1).2).1 = Return (delivered value)).
Proof.
  intros secret_id w1 Hd. subst w1.
  rewrite (store_secret_object uuid4 d value w Hd). cbn [fst snd]. fold secret_id.
  set (w1 := World _ _).
  assert (secrets_store w1 !! secret_id = Some (submission value)) as Hw1
    by apply lookup_insert_eq.
  split; [done |]. split; [done |]. split.
  - by rewrite (retrieve_secret_present _ _ _ Hw1 (truthy_submission value)).
  - intros Hrs Hgen.
    assert (secrets_store (serve uuid4 rs w1).2 !! secret_id = Some (submission value))
      as Hlater by (by rewrite serve_frame).
    by rewrite (retrieve_secret_present _ _ _ Hlater (truthy_submission value)).
Qed.

Lemma key_presence_only_witness :
  (store_secret sample_uuid4 sample_body sample_world).1 = Return (created "id-2")
  ∧ secrets_store (store_secret sample_uuid4 sample_body sample_world).2 !! "id-2"
    = Some (PyDict {[ "encrypted_data" := PyStr "" ]})
  ∧ (retrieve_secret "id-2" (store_secret sample_uuid4 sample_body sample_world).2).1
    = Return (delivered (PyStr ""))
  ∧ (GET "id-2" ∉ [GET "id-1"] →
     not_reissued sample_uuid4 3
       (uuid_calls (serve sample_uuid4 [GET "id-1"]
                      (store_secret sample_uuid4 sample_body sample_world).2).2) "id-2" →
     (retrieve_secret "id-2"
        (serve sample_uuid4 [GET "id-1"]
           (store_secret sample_uuid4 sample_body sample_world).2).2).1
     = Return (delivered (PyStr ""))).
Proof.
  exact (key_presence_only sample_uuid4 sample_world
           {[ "encrypted_data" := PyStr ""; "note" := PyNone ]} (PyStr "")
           [GET "id-1"] eq_refl).
Defined.




(** A fresh value of the generator is not a key of the dictionary. *)
Lemma fresh_not_stored (uuid4 : nat → string) (w : world) :
  stored_ok uuid4 w →
  collision_free uuid4 (S (uuid_calls w)) →
  secrets_store w !! uuid4 (uuid_calls w) = None.
Proof.
  intros Hw Hfree.
  destruct (secrets_store w !! uuid4 (uuid_calls w)) as [v|] eqn:Hv; [| done].
  destruct (Hw _ _ Hv) as [_ (k & Hk & Heq)].
  exfalso. apply (Hfree k (uuid_calls w)); [lia | done].
Qed.

(** C5. Effect of a successful submission. In a state the server can
    reach, and with a generator whose next value differs from the values
    it returned before, a submission that is answered 201 adds the entry
    (identifier, payload) to the dictionary: the identifier was not a key,
    the size grows by exactly one, every entry that was there is there
    unchanged, and a retrieval of the identifier right after succeeds with
    the payload. *)
Theorem put_grows_by_one (uuid4 : nat → string) (w : world) (data : pyobj) :
  let secret_id := uuid4 (uuid_calls w) in
  let after := (store_secret uuid4 data w).2 in
  reachable uuid4 w →
  collision_free uuid4 (S (uuid_calls w)) →
  succeeded (store_secret uuid4 data w).1 = true →
  ∃ payload,
    py_getitem data "encrypted_data" = Return payload
    ∧ (store_secret uuid4 data w).1 = Return (created secret_id)
    ∧ secrets_store w !! secret_id = None
    ∧ secrets_store after = <[secret_id := submission payload]> (secrets_store w)
    ∧ size (secrets_store after) = S (size (secrets_store w))
    ∧ (∀ k v, secrets_store w !! k = Some v → secrets_store after !! k = Some v)
    ∧ (retrieve_secret secret_id after).1 = Return (delivered payload).
Proof.
  intros secret_id after Hw Hfree. subst after.
  pose proof (fresh_not_stored uuid4 w (reachable_stored_ok uuid4 w Hw) Hfree) as Hnew.
  fold secret_id in Hnew.
  destruct (store_secret_cases uuid4 data w) as [d payload -> Hd | | |];
    cbn [fst snd succeeded]; try done.
  intros _. fold secret_id. exists payload. cbn [py_getitem secrets_store].
  rewrite Hd. split; [done |]. split; [done |]. split; [done |]. split; [done |].
  split; [by apply map_size_insert_None |]. split.
  - intros k v Hk. rewrite lookup_insert_ne; [done |]. intros <-. congruence.
  - set (w1 := World _ _).
    assert (secrets_store w1 !! secret_id = Some (submission payload)) as Hw1
      by apply lookup_insert_eq.
    by rewrite (retrieve_secret_present _ _ _ Hw1 (truthy_submission payload)).
Qed.

Lemma put_grows_by_one_witness :
  ∃ payload,
    py_getitem sample_body "encrypted_data" = Return payload
    ∧ (store_secret sample_uuid4 sample_body sample_world).1 = Return (created "id-2")
    ∧ secrets_store sample_world !! "id-2" = None
    ∧ secrets_store (store_secret sample_uuid4 sample_body sample_world).2
      = <["id-2" := submission payload]> (secrets_store sample_world)
    ∧ size (secrets_store (store_secret sample_uuid4 sample_body sample_world).2)
      = S (size (secrets_store sample_world))
    ∧ (∀ k v, secrets_store sample_world !! k = Some v →
              secrets_store (store_secret sample_uuid4 sample_body sample_world).2 !! k
              = Some v)
    ∧ (retrieve_secret "id-2" (store_secret sample_uuid4 sample_body sample_world).2).1
      = Return (delivered payload).
Proof.
  refine (put_grows_by_one sample_uuid4 sample_world sample_body _ _ _).
  - eexists. reflexivity.
  - apply sample_collision_free.
  - reflexivity.
Defined.

(** ** The life of a secret *)

Section Lifecycle.

Variable uuid4 : nat → string.

Lemma serve_snoc (rs : list request) (r : request) (w : world) :
  (serve uuid4 (rs ++ [r]) w).2 = (handle uuid4 r (serve uuid4 rs w).2).2.
Proof. by rewrite serve_app, serve_cons. Qed.

(** A submission answered with [secret_id] stored its payload under the
    generator's next value, which is [secret_id]. *)
Lemma store_secret_created (data : pyobj) (w : world) (secret_id : string) :
  (store_secret uuid4 data w).1 = Return (created secret_id) →
  ∃ payload,
    py_getitem data "encrypted_data" = Return payload
    ∧ secret_id = uuid4 (uuid_calls w)
    ∧ (store_secret uuid4 data w).2 =
        World (<[secret_id := submission payload]> (secrets_store w))
              (S (uuid_calls w)).
Proof.
  destruct (store_secret_cases uuid4 data w) as [d payload -> Hd | | |];
    cbn [fst snd]; intros Heq.
  - apply Return_inj, created_inj in Heq. subst secret_id.
    exists payload. cbn [py_getitem]. by rewrite Hd.
  - apply Return_inj in Heq. apply (f_equal status) in Heq. discriminate.
  - discriminate.
  - discriminate.
Qed.

(** Every entry of a reachable dictionary has such a history. *)
Lemma stored_has_history (rs : list request) (secret_id : string) (v : pyobj) :
  secrets_store (serve uuid4 rs initial).2 !! secret_id = Some v →
  stored_not_retrieved uuid4 rs secret_id v.
Proof.
  induction rs as [| r rs IH] using rev_ind.
  { simpl. by rewrite lookup_empty. }
  rewrite serve_snoc. set (w := (serve uuid4 rs initial).2) in *.
  assert (stored_ok uuid4 w) as Hw by apply serve_stored_ok, stored_ok_initial.
  assert (secrets_store w !! secret_id = Some v → r ≠ GET secret_id →
          stored_not_retrieved uuid4 (rs ++ [r]) secret_id v) as Hold.
  { intros Hv Hr. destruct (IH Hv) as (rs1 & data & payload & rs2 & -> & H).
    exists rs1, data, payload, (rs2 ++ [r]).
    split; [by rewrite <- app_assoc |].
    destruct H as (? & ? & ? & Hrs2). repeat split; try done.
    rewrite elem_of_app, list_elem_of_singleton. intros [? | ?]; [done |].
    by apply Hr. }
  destruct r as [data | other]; simpl.
  - destruct (store_secret_cases uuid4 data w) as [d payload -> Hd | | |];
      cbn [snd secrets_store]; try (intros Hv; by apply Hold).
    destruct (decide (uuid4 (uuid_calls w) = secret_id)) as [<- | Hne].
    + rewrite lookup_insert_eq. intros [= <-].
      exists rs, (PyDict d), payload, []. fold w.
      rewrite (store_secret_object uuid4 d payload w Hd). cbn [py_getitem].
      rewrite Hd. repeat split; try done. apply not_elem_of_nil.
    + rewrite lookup_insert_ne by done. intros Hv. by apply Hold.
  - destruct (retrieve_secret_cases uuid4 other w Hw)
      as [[Hnone ->] | (payload & Hsome & ->)]; cbn [snd secrets_store].
    + intros Hv. apply Hold; [done |]. intros [= ->]. congruence.
    + intros Hv. apply lookup_delete_Some in Hv as [Hne Hv].
      apply Hold; [done |]. congruence.
Qed.

(** And an entry with such a history is in the dictionary, when the
    generator did not repeat itself during the run. *)
Lemma history_is_stored (rs : list request) (secret_id : string) (v : pyobj) :
  collision_free uuid4 (uuid_calls (serve uuid4 rs initial).2) →
  stored_not_retrieved uuid4 rs secret_id v →
  secrets_store (serve uuid4 rs initial).2 !! secret_id = Some v.
Proof.
  intros Hfree (rs1 & data & payload & rs2 & -> & Hput & Hget & -> & Hrs2).
  revert Hfree. rewrite serve_app, serve_cons. cbn [fst snd handle].
  set (w1 := (serve uuid4 rs1 initial).2) in *.
  destruct (store_secret_created data w1 secret_id Hput)
    as (payload' & Hget' & Hid & ->).
  assert (payload' = payload) as -> by congruence.
  set (w2 := World _ _). intros Hfree.
  rewrite serve_frame; [apply lookup_insert_eq | done |].
  subst secret_id. apply (collision_free_not_reissued _ _ _ Hfree).
Qed.

(** A stored secret under later requests: it stays as it is, until the
    first request for it, which is answered with the whole of it and
    removes it. *)
Lemma serve_present (rs : list request) (w : world) (secret_id : string) (v : pyobj) :
  secrets_store w !! secret_id = Some v →
  truthy v = true →
  not_reissued uuid4 (uuid_calls w) (uuid_calls (serve uuid4 rs w).2) secret_id →
  (secrets_store (serve uuid4 rs w).2 !! secret_id = Some v ∧ GET secret_id ∉ rs)
  ∨ (secrets_store (serve uuid4 rs w).2 !! secret_id = None
     ∧ ∃ i, rs !! i = Some (GET secret_id)
            ∧ (serve uuid4 rs w).1 !! i = Some (Return (Response v 200))).
Proof.
  revert w. induction rs as [| r rs IH]; intros w Hv Ht.
  { intros _. left. split; [done | apply not_elem_of_nil]. }
  rewrite serve_cons. cbn [fst snd]. intros Hgen.
  pose proof (handle_calls_mono uuid4 r w) as Hstep.
  pose proof (serve_calls_mono uuid4 rs (handle uuid4 r w).2) as Hrest.
  destruct (request_is_get r secret_id) as [-> | Hne].
  - right. revert Hgen Hstep Hrest. cbn [handle].
    rewrite (retrieve_secret_present _ _ _ Hv Ht). cbn [fst snd].
    set (w1 := World _ _). intros Hgen Hstep Hrest.
    destruct (serve_absent uuid4 rs w1 secret_id) as [Hend _].
    { apply lookup_delete_eq. }
    { by eapply not_reissued_mono; [| | exact Hgen]. }
    split; [done |]. by exists 0.
  - destruct (IH (handle uuid4 r w).2) as [[Hkept Hrs] | [Hgone (i & Hi & Ho)]].
    + rewrite handle_frame; [done .. |].
      by eapply not_reissued_mono; [| | exact Hgen].
    + done.
    + by eapply not_reissued_mono; [| | exact Hgen].
    + left. split; [done |]. by apply not_elem_of_cons.
    + right. split; [done |]. by exists (S i).
Qed.

End Lifecycle.

(** C8. The vault invariant. Take a run [rs] from the empty dictionary,
    any continuation [rs'] of it, and a generator that does not repeat
    itself during the two. Then (1) the dictionary after [rs] holds
    [secret_id ↦ v] exactly when [v] was stored under [secret_id] by a
    submission of [rs] and not asked for since; (2) an entry that is
    present either is still there, with the same value, after [rs'], and
    [rs'] has no request for it, or it is gone and a request of [rs'] for
    it was answered 200 with that whole value: nothing but a successful
    retrieval removes or changes it; (3) an identifier that was issued
    and is absent stays absent, and every request for it is answered with
    the 404 response. *)
Theorem vault_invariant (uuid4 : nat → string) (rs rs' : list request) :
  let w := (serve uuid4 rs initial).2 in
  let after := serve uuid4 rs' w in
  collision_free uuid4 (uuid_calls after.2) →
  (∀ secret_id v,
     secrets_store w !! secret_id = Some v ↔ stored_not_retrieved uuid4 rs secret_id v)
  ∧ (∀ secret_id v,
       secrets_store w !! secret_id = Some v →
       (secrets_store after.2 !! secret_id = Some v ∧ GET secret_id ∉ rs')
       ∨ (secrets_store after.2 !! secret_id = None
          ∧ ∃ i, rs' !! i = Some (GET secret_id)
                 ∧ after.1 !! i = Some (Return (Response v 200))))
  ∧ (∀ k,
       k < uuid_calls w →
       secrets_store w !! uuid4 k = None →
       secrets_store after.2 !! uuid4 k = None
       ∧ ∀ i, rs' !! i = Some (GET (uuid4 k)) →
              after.1 !! i = Some (Return not_found)).
Proof.
  intros w after Hfree. subst after.
  pose proof (serve_calls_mono uuid4 rs' w) as Hmono.
  assert (stored_ok uuid4 w) as Hw by apply serve_stored_ok, stored_ok_initial.
  split; [| split].
  - intros secret_id v. split; [apply stored_has_history |].
    apply history_is_stored. by eapply collision_free_mono.
  - intros secret_id v Hv. destruct (Hw _ _ Hv) as [_ (k & Hk & <-)].
    apply serve_present; [done | by eapply stored_ok_truthy |].
    eapply not_reissued_mono; [| | apply (collision_free_not_reissued _ _ k Hfree)];
      [lia | done].
  - intros k Hk Hnone. apply serve_absent; [done |].
    eapply not_reissued_mono; [| | apply (collision_free_not_reissued _ _ k Hfree)];
      [lia | done].
Qed.

Lemma vault_invariant_witness :
  let rs := [POST (submission (PyStr "a")); GET "id-0"; POST (submission (PyStr "b"))] in
  let rs' := [GET "id-1"; GET "id-0"] in
  (∀ secret_id v,
     secrets_store sample_world !! secret_id = Some v
     ↔ stored_not_retrieved sample_uuid4 rs secret_id v)
  ∧ (∀ secret_id v,
       secrets_store sample_world !! secret_id = Some v →
       (secrets_store (serve sample_uuid4 rs' sample_world).2 !! secret_id = Some v
        ∧ GET secret_id ∉ rs')
       ∨ (secrets_store (serve sample_uuid4 rs' sample_world).2 !! secret_id = None
          ∧ ∃ i, rs' !! i = Some (GET secret_id)
                 ∧ (serve sample_uuid4 rs' sample_world).1 !! i
                   = Some (Return (Response v 200))))
  ∧ (∀ k,
       k < uuid_calls sample_world →
       secrets_store sample_world !! sample_uuid4 k = None →
       secrets_store (serve sample_uuid4 rs' sample_world).2 !! sample_uuid4 k = None
       ∧ ∀ i, rs' !! i = Some (GET (sample_uuid4 k)) →
              (serve sample_uuid4 rs' sample_world).1 !! i = Some (Return not_found)).
Proof.
  apply (vault_invariant sample_uuid4
           [POST (submission (PyStr "a")); GET "id-0"; POST (submission (PyStr "b"))]
           [GET "id-1"; GET "id-0"]).
  apply sample_collision_free.
Defined.

(** ** Retrievals that race *)

(** A thread that takes its two steps alone does what the handler does. *)
Lemma thread_runs_retrieve_secret (secret_id : string) (w : world) :
  let c1 := thread_step (AtPop secret_id) w in
  let c2 := thread_step c1.1 c1.2 in
  ∃ r, c2.1 = Done r ∧ retrieve_secret secret_id w = (Return r, c2.2).
Proof.
  unfold retrieve_secret, bind, ret. cbn [thread_step store_pop].
  destruct (secrets_store w !! secret_id) as [v|]; cbn [fst snd thread_step].
  - exists (if truthy v then Response (jsonify v) 200
            else Response (jsonify error_not_found) 404).
    split; [done |]. by destruct (truthy v).
  - by exists (Response (jsonify error_not_found) 404).
Qed.

Lemma thread_step_progress (t : thread) (w : world) :
  progress (thread_step t w).1 = Nat.min 2 (S (progress t)).
Proof.
  destruct t as [secret_id | secret | r]; cbn [thread_step store_pop]; [| done ..].
  by destruct (secrets_store w !! secret_id).
Qed.

Lemma sched_step_length (c : list thread * world) (i : nat) :
  length (sched_step c i).1 = length c.1.
Proof.
  unfold sched_step. destruct (c.1 !! i); [| done]. apply length_insert.
Qed.

Lemma sched_step_lookup_ne (c : list thread * world) (i j : nat) :
  i ≠ j → (sched_step c i).1 !! j = c.1 !! j.
Proof.
  intros Hij. unfold sched_step. destruct (c.1 !! i); [| done].
  by apply list_lookup_insert_ne.
Qed.

Lemma sched_step_lookup_eq (c : list thread * world) (i : nat) (t : thread) :
  c.1 !! i = Some t → (sched_step c i).1 !! i = Some (thread_step t c.2).1.
Proof.
  intros Hi. unfold sched_step. rewrite Hi. cbn [fst].
  apply list_lookup_insert_eq. by eapply lookup_lt_Some.
Qed.

Lemma run_schedule_length (sched : list nat) (c : list thread * world) :
  length (run_schedule sched c).1 = length c.1.
Proof.
  revert c. induction sched as [| i sched IH]; intros c; [done |].
  unfold run_schedule in *. simpl. by rewrite IH, sched_step_length.
Qed.

(** Each turn a thread gets moves it one step on, up to its end. *)
Lemma run_schedule_progress (sched : list nat) (c : list thread * world)
    (j : nat) (t : thread) :
  c.1 !! j = Some t →
  ∃ t', (run_schedule sched c).1 !! j = Some t'
        ∧ Nat.min 2 (progress t + count_occ Nat.eq_dec sched j) ≤ progress t'.
Proof.
  revert c t. induction sched as [| i sched IH]; intros c t Hj.
  { exists t. split; [done |]. cbn [count_occ]. lia. }
  unfold run_schedule in *. cbn [fold_left count_occ].
  destruct (Nat.eq_dec i j) as [-> | Hij].
  - destruct (IH (sched_step c j) _ (sched_step_lookup_eq c j t Hj)) as (t' & Ht' & Hp).
    exists t'. split; [done |]. rewrite thread_step_progress in Hp. lia.
  - apply IH. by rewrite sched_step_lookup_ne.
Qed.

Lemma winner_not_loser (secret_id : string) (v : pyobj) (t : thread) :
  truthy v = true → winner v t → loser secret_id t → False.
Proof.
  intros Hv [-> | ->] [H | [H | H]]; try discriminate.
  injection H as ->. discriminate.
Qed.

Lemma loser_no_success (secret_id : string) (t : thread) :
  loser secret_id t → observed_success t = false.
Proof. by intros [-> | [-> | ->]]. Qed.

Lemma sched_step_race_inv (secret_id : string) (v : pyobj)
    (c : list thread * world) (k : nat) :
  truthy v = true →
  race_inv secret_id v c → race_inv secret_id v (sched_step c k).
Proof.
  intros Hv Hinv. destruct (c.1 !! k) as [t|] eqn:Hk;
    [| unfold sched_step; by rewrite Hk].
  pose proof (sched_step_lookup_eq c k t Hk) as Hnew.
  assert ((sched_step c k).2 = (thread_step t c.2).2) as Hworld
    by (unfold sched_step; by rewrite Hk).
  destruct Hinv as [[Hin Hall] | [Hout (i & ti & Hi & Hwin & Hothers)]].
  - right. rewrite (Hall k t Hk) in Hnew, Hworld.
    cbn [thread_step store_pop] in Hnew, Hworld. rewrite Hin in Hnew, Hworld.
    cbn [fst snd] in Hnew, Hworld. rewrite Hworld. split.
    { apply lookup_delete_eq. }
    exists k, (AtIf v). split; [done |]. split; [by left |].
    intros j t' Hjk. rewrite sched_step_lookup_ne by done. intros Hj.
    left. by eapply Hall.
  - right. destruct (decide (k = i)) as [-> | Hki].
    + assert (t = ti) as -> by congruence.
      assert ((thread_step ti c.2).2 = c.2 ∧ winner v (thread_step ti c.2).1)
        as [Hsame Hwin'].
      { destruct Hwin as [-> | ->]; cbn [thread_step fst snd].
        - rewrite Hv. split; [done | by right].
        - split; [done | by right]. }
      rewrite Hworld, Hsame. split; [done |].
      exists i, (thread_step ti c.2).1. split; [done |]. split; [done |].
      intros j t' Hji. rewrite sched_step_lookup_ne by done. by apply Hothers.
    + assert ((thread_step t c.2).2 = c.2 ∧ loser secret_id (thread_step t c.2).1)
        as [Hsame Hlose].
      { destruct (Hothers k t Hki Hk) as [-> | [-> | ->]];
          cbn [thread_step store_pop fst snd].
        - rewrite Hout. cbn [fst snd]. split; [done |]. right. by left.
        - split; [done |]. right. by right.
        - split; [done |]. right. by right. }
      rewrite Hworld, Hsame. split; [done |].
      exists i, ti. split; [by rewrite sched_step_lookup_ne |]. split; [done |].
      intros j t' Hji. destruct (decide (j = k)) as [-> | Hjk].
      * rewrite Hnew. by intros [= <-].
      * rewrite sched_step_lookup_ne by done. by apply Hothers.
Qed.

Lemma run_schedule_race_inv (secret_id : string) (v : pyobj) (sched : list nat)
    (c : list thread * world) :
  truthy v = true →
  race_inv secret_id v c → race_inv secret_id v (run_schedule sched c).
Proof.
  intros Hv. revert c. induction sched as [| k sched IH]; intros c Hinv; [done |].
  unfold run_schedule in *. simpl. by apply IH, sched_step_race_inv.
Qed.

(** C6. Exactly one of [N] racing retrievals gets the secret. Start [N]
    threads on [retrieve_secret secret_id] in a state that holds a secret
    under [secret_id], and let any schedule interleave their steps. At
    every point at most one thread has observed success. And when the
    schedule gives every thread its two steps, one thread has returned
    200 with the secret and each of the other [N - 1] has returned the
    404 response. *)
Theorem concurrent_exactly_once (N : nat) (secret_id : string) (v : pyobj)
    (w : world) (sched : list nat) :
  let c := run_schedule sched (replicate N (AtPop secret_id), w) in
  secrets_store w !! secret_id = Some v →
  truthy v = true →
  (∀ i j ti tj,
     c.1 !! i = Some ti → c.1 !! j = Some tj →
     observed_success ti = true → observed_success tj = true → i = j)
  ∧ (1 ≤ N →
     (∀ j, j < N → 2 ≤ count_occ Nat.eq_dec sched j) →
     ∃ i, i < N
          ∧ c.1 !! i = Some (Done (Response v 200))
          ∧ ∀ j, j < N → j ≠ i → c.1 !! j = Some (Done not_found)).
Proof.
  intros c Hin Hv.
  assert (race_inv secret_id v c) as Hinv.
  { apply run_schedule_race_inv; [done |]. left. split; [done |].
    intros j t Hj. by apply lookup_replicate_1 in Hj as [-> _]. }
  assert (length c.1 = N) as Hlen
    by (subst c; rewrite run_schedule_length; apply length_replicate).
  split.
  - intros i j ti tj Hi Hj Hsi Hsj.
    destruct Hinv as [[_ Hall] | [_ (k & tk & Hk & Hwin & Hothers)]].
    + rewrite (Hall i ti Hi) in Hsi. discriminate.
    + destruct (decide (i = k)) as [-> | Hik];
        [| by rewrite (loser_no_success _ _ (Hothers i ti Hik Hi)) in Hsi].
      destruct (decide (j = k)) as [-> | Hjk];
        [done | by rewrite (loser_no_success _ _ (Hothers j tj Hjk Hj)) in Hsj].
  - intros HN Hfair.
    assert (∀ j, j < N → ∃ r, c.1 !! j = Some (Done r)) as Hdone.
    { intros j Hj.
      destruct (run_schedule_progress sched (replicate N (AtPop secret_id), w) j
                  (AtPop secret_id)) as (t' & Ht' & Hp).
      { by apply lookup_replicate_2. }
      specialize (Hfair j Hj). cbn [progress] in Hp.
      destruct t' as [? | ? | r]; cbn [progress] in Hp; [lia | lia |].
      by exists r. }
    destruct Hinv as [[_ Hall] | [_ (k & tk & Hk & Hwin & Hothers)]].
    + destruct (Hdone 0) as [r Hr]; [lia |]. by specialize (Hall 0 _ Hr).
    + assert (k < N) as HkN by (rewrite <- Hlen; by eapply lookup_lt_Some).
      exists k. split; [done |]. split.
      * destruct (Hdone k HkN) as [r Hr]. rewrite Hr. f_equal.
        assert (tk = Done r) as -> by congruence.
        destruct Hwin as [Hwin | Hwin]; [discriminate | done].
      * intros j Hj Hjk. destruct (Hdone j Hj) as [r Hr]. rewrite Hr. f_equal.
        destruct (Hothers j _ Hjk Hr) as [H | [H | H]]; [discriminate .. | done].
Qed.

Lemma concurrent_exactly_once_witness :
  let c := run_schedule [2; 0; 1; 0; 2; 1]
             (replicate 3 (AtPop "id-1"), sample_world) in
  (∀ i j ti tj,
     c.1 !! i = Some ti → c.1 !! j = Some tj →
     observed_success ti = true → observed_success tj = true → i = j)
  ∧ (1 ≤ 3 →
     (∀ j, j < 3 → 2 ≤ count_occ Nat.eq_dec [2; 0; 1; 0; 2; 1] j) →
     ∃ i, i < 3
          ∧ c.1 !! i = Some (Done (Response (submission (PyStr "b")) 200))
          ∧ ∀ j, j < 3 → j ≠ i → c.1 !! j = Some (Done not_found)).
Proof.
  apply (concurrent_exactly_once 3 "id-1" (submission (PyStr "b")) sample_world
           [2; 0; 1; 0; 2; 1]); reflexivity.
Defined.

(** * Further properties of the handlers *)

(** ** The guard of [store_secret], body by body *)

Lemma str_app_cons (c : ascii) (a b : string) :
  String c a +:+ b = String c (a +:+ b).
Proof. reflexivity. Qed.

Lemma prefix_app (a b : string) :
  String.prefix a b = true ↔ ∃ post, b = a +:+ post.
Proof.
  revert b. induction a as [| c a IH]; intros b.
  { split; [intros _; exists b; reflexivity | intros _; by destruct b]. }
  destruct b as [| c' b]; cbn [String.prefix].
  { split; [done | intros [post H]; by rewrite str_app_cons in H]. }
  destruct (Ascii.ascii_dec c c') as [-> | Hne].
  - rewrite IH. split; intros [post H]; exists post.
    + by rewrite str_app_cons, H.
    + rewrite str_app_cons in H. by injection H.
  - split; [done |]. intros [post H]. rewrite str_app_cons in H.
    injection H as ? ?. done.
Qed.

Lemma str_contains_substring (needle hay : string) :
  str_contains needle hay = true ↔ substring_of needle hay.
Proof.
  unfold substring_of. induction hay as [| c hay IH].
  - cbn [str_contains]. rewrite orb_false_r, prefix_app. split.
    + intros [post H]. exists "", post. exact H.
    + intros (pre & post & H). destruct pre as [| c' pre].
      * exists post. exact H.
      * by rewrite str_app_cons in H.
  - cbn [str_contains]. rewrite orb_true_iff, prefix_app, IH. split.
    + intros [[post H] | (pre & post & H)].
      * exists "", post. exact H.
      * exists (String c pre), post. by rewrite str_app_cons, H.
    + intros (pre & post & H). destruct pre as [| c' pre].
      * left. exists post. exact H.
      * right. rewrite str_app_cons in H. injection H as _ H. by exists pre, post.
Qed.

Lemma existsb_str_elem (key : string) (l : list pyobj) :
  existsb (str_eq_obj key) l = true ↔ PyStr key ∈ l.
Proof.
  rewrite existsb_exists. split.
  - intros (x & Hx & Heq). apply list_elem_of_In.
    destruct x; try discriminate. apply String.eqb_eq in Heq. by subst.
  - intros Hin. exists (PyStr key). split; [by apply list_elem_of_In |].
    apply String.eqb_refl.
Qed.

Section Guard.

Variable uuid4 : nat → string.

Lemma store_secret_str (s : string) (w : world) :
  store_secret uuid4 (PyStr s) w =
    if str_contains "encrypted_data" s
    then (Raise (TypeError "string indices must be integers, not 'str'"),
          World (secrets_store w) (S (uuid_calls w)))
    else (Return invalid_payload, w).
Proof.
  destruct s as [| c s]; [done |].
  unfold store_secret, body_rejected, bind, lift, ret. cbn [truthy py_in].
  cbn [String.length Nat.eqb negb].
  by destruct (str_contains _ _).
Qed.

Lemma store_secret_list (l : list pyobj) (w : world) :
  store_secret uuid4 (PyList l) w =
    if existsb (str_eq_obj "encrypted_data") l
    then (Raise (TypeError "list indices must be integers or slices, not str"),
          World (secrets_store w) (S (uuid_calls w)))
    else (Return invalid_payload, w).
Proof.
  destruct l as [| x l]; [done |].
  unfold store_secret, body_rejected, bind, lift, ret. cbn [truthy py_in].
  cbn [length Nat.eqb negb].
  by destruct (existsb _ _).
Qed.

Lemma store_secret_dict (d : gmap string pyobj) (w : world) :
  store_secret uuid4 (PyDict d) w =
    match d !! "encrypted_data" with
    | Some payload =>
        (Return (created (uuid4 (uuid_calls w))),
         World (<[uuid4 (uuid_calls w) := submission payload]> (secrets_store w))
               (S (uuid_calls w)))
    | None => (Return invalid_payload, w)
    end.
Proof.
  destruct (d !! "encrypted_data") as [payload|] eqn:Hd.
  - by apply store_secret_object.
  - unfold store_secret, body_rejected, bind, lift, ret. cbn [truthy py_in].
    destruct (size d =? 0); cbn [negb]; [done |].
    rewrite bool_decide_eq_false_2; [done |]. rewrite Hd. by intros [v Hv].
Qed.

End Guard.

(** X1. A submission is answered 201 exactly when its body is an object
    that has the key ["encrypted_data"]; and an answer with status 201 is
    the one that carries the generator's next value as identifier. *)
Theorem store_secret_created_iff (uuid4 : nat → string) (data : pyobj) (w : world) :
  ((∃ r, (store_secret uuid4 data w).1 = Return r ∧ status r = 201%Z)
   ↔ (∃ d payload, data = PyDict d ∧ d !! "encrypted_data" = Some payload))
  ∧ (∀ r, (store_secret uuid4 data w).1 = Return r → status r = 201%Z →
          r = created (uuid4 (uuid_calls w))).
Proof.
  split; [split |].
  - intros (r & Hr & Hs).
    destruct (store_secret_cases uuid4 data w) as [d payload -> Hd | | |];
      cbn [fst] in *.
    + by exists d, payload.
    + apply Return_inj in Hr. by subst r.
    + discriminate.
    + discriminate.
  - intros (d & payload & -> & Hd).
    rewrite (store_secret_object uuid4 d payload w Hd).
    by exists (created (uuid4 (uuid_calls w))).
  - intros r Hr Hs.
    destruct (store_secret_cases uuid4 data w) as [d payload -> Hd | | |];
      cbn [fst] in *.
    + by apply Return_inj in Hr.
    + apply Return_inj in Hr. by subst r.
    + discriminate.
    + discriminate.
Qed.

(** X2. A submission is answered 400, with nothing changed, exactly when
    its body is without the field: [null], [false], zero, an empty
    string, list or object, or a string, list or object that does not
    hold ["encrypted_data"]. *)
Theorem store_secret_rejected_iff (uuid4 : nat → string) (data : pyobj) (w : world) :
  store_secret uuid4 data w = (Return invalid_payload, w) ↔ body_has_no_field data.
Proof.
  destruct data as [ | b | n | f | s | l | d ]; cbn [body_has_no_field].
  - done.
  - by destruct b.
  - unfold store_secret, body_rejected, bind, lift, ret. cbn [truthy py_in].
    destruct (Z.eqb_spec n 0) as [-> | Hn]; cbn [negb]; [done |].
    split; [discriminate | done].
  - destruct f; try (split; [discriminate | by intros [sign [=]]]).
    split; [by eexists | done].
  - rewrite store_secret_str, <- str_contains_substring.
    destruct (str_contains _ s); split; done.
  - rewrite store_secret_list, <- existsb_str_elem.
    destruct (existsb _ l); split; done.
  - rewrite store_secret_dict.
    destruct (d !! "encrypted_data"); split; done.
Qed.

Lemma returned_not_raised (r : response) (w' w : world) (P : Prop) :
  ¬ P →
  ((∃ e, (Return r, w').1 = Raise e) ↔ P)
  ∧ (∀ e, (Return r, w').1 = Raise e →
          (∃ msg, e = TypeError msg) ∧ secrets_store (Return r, w').2 = secrets_store w).
Proof. intros HP. split; [split; [by intros [e ?] | done] | done]. Qed.

Lemma raised_type_error (msg : string) (w' w : world) (P : Prop) :
  P →
  secrets_store w' = secrets_store w →
  ((∃ e, (@Raise response (TypeError msg), w').1 = Raise e) ↔ P)
  ∧ (∀ e, (@Raise response (TypeError msg), w').1 = Raise e →
          (∃ msg', e = TypeError msg')
          ∧ secrets_store (@Raise response (TypeError msg), w').2 = secrets_store w).
Proof.
  intros HP Hw. split; [split; [done | by eexists] |].
  intros e [= <-]. split; [by eexists | done].
Qed.

(** X3. A submission ends in an exception exactly when its body is
    [true], a number that is not zero, or a list or string that holds
    ["encrypted_data"]. The exception is a [TypeError], never a
    [KeyError], and it leaves the dictionary as it was. *)
Theorem store_secret_raises_iff (uuid4 : nat → string) (data : pyobj) (w : world) :
  ((∃ e, (store_secret uuid4 data w).1 = Raise e) ↔ body_breaks_handler data)
  ∧ (∀ e, (store_secret uuid4 data w).1 = Raise e →
          (∃ msg, e = TypeError msg)
          ∧ secrets_store (store_secret uuid4 data w).2 = secrets_store w).
Proof.
  destruct data as [ | b | n | f | s | l | d ]; cbn [body_breaks_handler].
  - apply (returned_not_raised invalid_payload w w). tauto.
  - destruct b.
    + by apply (raised_type_error "argument of type 'bool' is not iterable" w w).
    + apply (returned_not_raised invalid_payload w w). discriminate.
  - unfold store_secret, body_rejected, bind, lift, ret. cbn [truthy py_in].
    destruct (Z.eqb_spec n 0) as [-> | Hn]; cbn [negb].
    + apply (returned_not_raised invalid_payload w w). tauto.
    + by apply (raised_type_error "argument of type 'int' is not iterable" w w).
  - destruct f as [sign | sign | | sign m e].
    + apply (returned_not_raised invalid_payload w w). intros H. by apply (H sign).
    + by apply (raised_type_error "argument of type 'float' is not iterable" w w).
    + by apply (raised_type_error "argument of type 'float' is not iterable" w w).
    + by apply (raised_type_error "argument of type 'float' is not iterable" w w).
  - rewrite store_secret_str.
    destruct (str_contains _ s) eqn:Hs.
    + apply raised_type_error; [by apply str_contains_substring | done].
    + apply returned_not_raised. rewrite <- str_contains_substring. congruence.
  - rewrite store_secret_list.
    destruct (existsb _ l) eqn:Hl.
    + apply raised_type_error; [by apply existsb_str_elem | done].
    + apply returned_not_raised. rewrite <- existsb_str_elem. congruence.
  - rewrite store_secret_dict.
    destruct (d !! "encrypted_data"); apply returned_not_raised; tauto.
Qed.

(** X4. Only the field ["encrypted_data"] of a submitted object counts:
    two objects with the same value under it (or both without it) get the
    same answer and leave the same state, so no other field is stored. *)
Theorem store_secret_other_fields (uuid4 : nat → string) (d1 d2 : gmap string pyobj)
    (w : world) :
  d1 !! "encrypted_data" = d2 !! "encrypted_data" →
  store_secret uuid4 (PyDict d1) w = store_secret uuid4 (PyDict d2) w.
Proof. intros Hd. by rewrite !store_secret_dict, Hd. Qed.

Lemma store_secret_other_fields_witness :
  store_secret sample_uuid4 sample_body sample_world
  = store_secret sample_uuid4 (submission (PyStr "")) sample_world.
Proof.
  apply (store_secret_other_fields sample_uuid4
           {[ "encrypted_data" := PyStr ""; "note" := PyNone ]}
           {[ "encrypted_data" := PyStr "" ]} sample_world).
  reflexivity.
Defined.

(** ** The effect of one request on the state *)

Lemma world_eta (w : world) : World (secrets_store w) (uuid_calls w) = w.
Proof. by destruct w. Qed.

(** [retrieve_secret] as a function of what is stored under the name. *)
Lemma retrieve_secret_eq (secret_id : string) (w : world) :
  retrieve_secret secret_id w =
    (Return match secrets_store w !! secret_id with
            | Some v => if truthy v then Response v 200 else not_found
            | None => not_found
            end,
     World (delete secret_id (secrets_store w)) (uuid_calls w)).
Proof.
  unfold retrieve_secret, bind, ret. cbn [store_pop].
  destruct (secrets_store w !! secret_id) as [v|] eqn:Hv.
  - by destruct (truthy v).
  - cbn [truthy]. by rewrite (delete_id _ _ Hv), world_eta.
Qed.

(** What [store_secret] does with a body does not depend on the state. *)
Lemma store_secret_uniform (uuid4 : nat → string) (data : pyobj) :
  (∃ payload, ∀ w,
     store_secret uuid4 data w =
       (Return (created (uuid4 (uuid_calls w))),
        World (<[uuid4 (uuid_calls w) := submission payload]> (secrets_store w))
              (S (uuid_calls w))))
  ∨ (∀ w, store_secret uuid4 data w = (Return invalid_payload, w))
  ∨ (∃ msg, ∀ w, store_secret uuid4 data w = (Raise (TypeError msg), w))
  ∨ (∃ msg, ∀ w,
       store_secret uuid4 data w =
         (Raise (TypeError msg), World (secrets_store w) (S (uuid_calls w)))).
Proof.
  destruct data as [ | b | n | f | s | l | d ].
  - right. by left.
  - destruct b; [right; right; left; by eexists | right; by left].
  - destruct (Z.eqb_spec n 0) as [-> | Hn]; [right; by left |].
    right. right. left. eexists. intros w.
    unfold store_secret, body_rejected, bind, lift, ret. cbn [truthy py_in].
    apply Z.eqb_neq in Hn. by rewrite Hn.
  - destruct f; [right; by left | right; right; left; by eexists ..].
  - destruct (str_contains "encrypted_data" s) eqn:Hs.
    + right. right. right. eexists. intros w. by rewrite store_secret_str, Hs.
    + right. left. intros w. by rewrite store_secret_str, Hs.
  - destruct (existsb (str_eq_obj "encrypted_data") l) eqn:Hl.
    + right. right. right. eexists. intros w. by rewrite store_secret_list, Hl.
    + right. left. intros w. by rewrite store_secret_list, Hl.
  - destruct (d !! "encrypted_data") as [payload|] eqn:Hd.
    + left. exists payload. intros w. by rewrite store_secret_dict, Hd.
    + right. left. intros w. by rewrite store_secret_dict, Hd.
Qed.

(** X5. A retrieval, in any state: it never raises and never calls the
    generator; afterwards the name is not a key of the dictionary and the
    other entries are as they were (the dictionary is the old one with
    the name deleted); and the answer is 200 with the stored value, when
    one was stored and is true for [if secret:], or else the 404
    response. *)
Theorem retrieve_secret_effect (secret_id : string) (w : world) :
  ∃ r,
    retrieve_secret secret_id w
      = (Return r, World (delete secret_id (secrets_store w)) (uuid_calls w))
    ∧ ((status r = 200%Z
        ∧ secrets_store w !! secret_id = Some (body r)
        ∧ truthy (body r) = true)
       ∨ (r = not_found
          ∧ ∀ v, secrets_store w !! secret_id = Some v → truthy v = false)).
Proof.
  rewrite retrieve_secret_eq.
  destruct (secrets_store w !! secret_id) as [v|]; [destruct (truthy v) eqn:Hv |].
  - exists (Response v 200). split; [done |]. by left.
  - exists not_found. split; [done |]. right. split; [done |]. by intros ? [= <-].
  - exists not_found. split; [done |]. by right.
Qed.

(** X6. [store_secret] does not look whether the new identifier is in
    use. When the generator returns a key of the dictionary, the
    submission is still answered 201, the secret that was stored under
    that key is replaced by the new one, and the dictionary does not
    grow. *)
Theorem store_secret_overwrites (uuid4 : nat → string) (w : world)
    (d : gmap string pyobj) (payload old : pyobj) :
  let secret_id := uuid4 (uuid_calls w) in
  let after := (store_secret uuid4 (PyDict d) w).2 in
  d !! "encrypted_data" = Some payload →
  secrets_store w !! secret_id = Some old →
  (store_secret uuid4 (PyDict d) w).1 = Return (created secret_id)
  ∧ size (secrets_store after) = size (secrets_store w)
  ∧ secrets_store after !! secret_id = Some (submission payload)
  ∧ (retrieve_secret secret_id after).1 = Return (delivered payload)
  ∧ (retrieve_secret secret_id (retrieve_secret secret_id after).2).1
    = Return not_found.
Proof.
  intros secret_id after Hd Hold. subst after.
  rewrite (store_secret_object uuid4 d payload w Hd). cbn [fst snd]. fold secret_id.
  set (w1 := World _ _).
  assert (secrets_store w1 !! secret_id = Some (submission payload)) as Hw1
    by apply lookup_insert_eq.
  split; [done |]. split; [by apply map_size_insert_Some |]. split; [done |].
  rewrite (retrieve_secret_present _ _ _ Hw1 (truthy_submission payload)).
  cbn [fst snd]. split; [done |].
  rewrite retrieve_secret_absent; [done |]. apply lookup_delete_eq.
Qed.

Lemma store_secret_overwrites_witness :
  let w := (serve stuck_uuid4 [POST (submission (PyStr "a"))] initial).2 in
  let after := (store_secret stuck_uuid4 (submission (PyStr "b")) w).2 in
  (store_secret stuck_uuid4 (submission (PyStr "b")) w).1 = Return (created "id-0")
  ∧ size (secrets_store after) = size (secrets_store w)
  ∧ secrets_store after !! "id-0" = Some (submission (PyStr "b"))
  ∧ (retrieve_secret "id-0" after).1 = Return (delivered (PyStr "b"))
  ∧ (retrieve_secret "id-0" (retrieve_secret "id-0" after).2).1 = Return not_found.
Proof.
  apply (store_secret_overwrites stuck_uuid4
           (serve stuck_uuid4 [POST (submission (PyStr "a"))] initial).2
           {[ "encrypted_data" := PyStr "b" ]} (PyStr "b") (submission (PyStr "a")));
    reflexivity.
Defined.

(** ** Requests in the other order *)

(** X7. Retrievals of two different names commute: in either order each
    gets the same answer, and the state after the two is the same. *)
Theorem retrieve_secret_commute (id1 id2 : string) (w : world) :
  let first := retrieve_secret id1 w in
  let second := retrieve_secret id2 first.2 in
  let first' := retrieve_secret id2 w in
  let second' := retrieve_secret id1 first'.2 in
  id1 ≠ id2 →
  first.1 = second'.1 ∧ second.1 = first'.1 ∧ second.2 = second'.2.
Proof.
  intros first second first' second' Hne. subst first second first' second'.
  rewrite !retrieve_secret_eq. cbn [fst snd secrets_store uuid_calls].
  rewrite !lookup_delete_ne by done. split; [done |]. split; [done |].
  by rewrite delete_delete.
Qed.

Lemma retrieve_secret_commute_witness :
  (retrieve_secret "id-1" sample_world).1
    = (retrieve_secret "id-1" (retrieve_secret "id-0" sample_world).2).1
  ∧ (retrieve_secret "id-0" (retrieve_secret "id-1" sample_world).2).1
    = (retrieve_secret "id-0" sample_world).1
  ∧ (retrieve_secret "id-0" (retrieve_secret "id-1" sample_world).2).2
    = (retrieve_secret "id-1" (retrieve_secret "id-0" sample_world).2).2.
Proof.
  apply (retrieve_secret_commute "id-1" "id-0" sample_world). discriminate.
Defined.

(** X8. A submission and a retrieval commute, unless the retrieval asks
    for the very identifier the submission is about to get: in either
    order the two answers are the same and so is the state after. *)
Theorem store_retrieve_commute (uuid4 : nat → string) (data : pyobj)
    (secret_id : string) (w : world) :
  let put := store_secret uuid4 data w in
  let get := retrieve_secret secret_id put.2 in
  let get' := retrieve_secret secret_id w in
  let put' := store_secret uuid4 data get'.2 in
  uuid4 (uuid_calls w) ≠ secret_id →
  put.1 = put'.1 ∧ get.1 = get'.1 ∧ get.2 = put'.2.
Proof.
  intros put get get' put' Hne. subst put get get' put'.
  rewrite (retrieve_secret_eq secret_id w). cbn [fst snd].
  destruct (store_secret_uniform uuid4 data)
    as [[payload H] | [H | [[msg H] | [msg H]]]];
    rewrite !H, retrieve_secret_eq; cbn [fst snd secrets_store uuid_calls];
    try done.
  rewrite lookup_insert_ne by done. split; [done |]. split; [done |].
  by rewrite delete_insert_ne.
Qed.

Lemma store_retrieve_commute_witness :
  (store_secret sample_uuid4 sample_body sample_world).1
    = (store_secret sample_uuid4 sample_body
         (retrieve_secret "id-1" sample_world).2).1
  ∧ (retrieve_secret "id-1" (store_secret sample_uuid4 sample_body sample_world).2).1
    = (retrieve_secret "id-1" sample_world).1
  ∧ (retrieve_secret "id-1" (store_secret sample_uuid4 sample_body sample_world).2).2
    = (store_secret sample_uuid4 sample_body (retrieve_secret "id-1" sample_world).2).2.
Proof.
  apply (store_retrieve_commute sample_uuid4 sample_body "id-1" sample_world).
  vm_compute. discriminate.
Defined.

(** ** Counting over a run *)


Section Counting.

Variable uuid4 : nat → string.



Lemma handle_answer_shape (r : request) (w : world) :
  stored_ok uuid4 w → answer_shape uuid4 (handle uuid4 r w).1.
Proof.
  intros Hw. destruct r as [data | secret_id]; cbn [handle].
  - destruct (store_secret_uniform uuid4 data)
      as [[payload H] | [H | [[msg H] | [msg H]]]]; rewrite H; constructor.
  - destruct (retrieve_secret_cases uuid4 secret_id w Hw)
      as [[_ ->] | (payload & _ & ->)]; constructor.
Qed.

Lemma serve_answer_shape (rs : list request) (w : world) (i : nat)
    (o : outcome response) :
  stored_ok uuid4 w →
  (serve uuid4 rs w).1 !! i = Some o → answer_shape uuid4 o.
Proof.
  revert w i. induction rs as [| r rs IH]; intros w i Hw; [done |].
  rewrite serve_cons. cbn [fst]. destruct i as [| i]; simpl.
  - intros [= <-]. by apply handle_answer_shape.
  - apply IH. by apply handle_stored_ok.
Qed.

End Counting.



(** X10. The answers of the server, in any run from the empty dictionary,
    are of five kinds: 201 with an identifier of the generator, the 400
    response, 200 with an object whose one field is ["encrypted_data"],
    the 404 response, and a [TypeError]. And in the state after any such
    run, a retrieval of an identifier that is stored is answered 200 with
    the payload stored under it, and a retrieval of any other identifier
    with the 404 response: the test [if secret:] never turns a stored
    secret into a 404. *)
Theorem answers_have_shape (uuid4 : nat → string) (rs : list request) :
  let run := serve uuid4 rs initial in
  (∀ i o, run.1 !! i = Some o → answer_shape uuid4 o)
  ∧ (∀ secret_id,
       match secrets_store run.2 !! secret_id with
       | Some v =>
           ∃ payload,
             v = submission payload
             ∧ (retrieve_secret secret_id run.2).1 = Return (delivered payload)
       | None => (retrieve_secret secret_id run.2).1 = Return not_found
       end).
Proof.
  intros run. subst run. split.
  - intros i o. apply serve_answer_shape, stored_ok_initial.
  - intros secret_id.
    destruct (retrieve_secret_cases uuid4 secret_id (serve uuid4 rs initial).2)
      as [[-> ->] | (payload & -> & ->)].
    + apply serve_stored_ok, stored_ok_initial.
    + done.
    + by exists payload.
Qed.

Lemma answers_have_shape_witness :
  answer_shape sample_uuid4 (Return (delivered (PyStr "a")))
  ∧ ∃ payload,
      submission (PyStr "b") = submission payload
      ∧ (retrieve_secret "id-1" sample_world).1 = Return (delivered payload).
Proof.
  destruct (answers_have_shape sample_uuid4
              [POST (submission (PyStr "a")); GET "id-0"; POST (submission (PyStr "b"))])
    as [Hshape Hget].
  split.
  - apply (Hshape 1 (Return (delivered (PyStr "a")))). reflexivity.
  - exact (Hget "id-1").
Defined.

(** ** What racing retrievals leave alone *)

Lemma sched_step_cases (c : list thread * world) (i : nat) :
  sched_step c i = c
  ∨ ∃ t, c.1 !! i = Some t
         ∧ sched_step c i = (<[i := (thread_step t c.2).1]> c.1, (thread_step t c.2).2).
Proof.
  unfold sched_step. destruct (c.1 !! i) as [t|]; [right; by exists t | by left].
Qed.

Lemma sched_step_race_frame (secret_id : string) (w : world)
    (c : list thread * world) (i : nat) :
  let kept (c : list thread * world) :=
    uuid_calls c.2 = uuid_calls w
    ∧ (∀ k, k ≠ secret_id → secrets_store c.2 !! k = secrets_store w !! k)
    ∧ (∀ j x, c.1 !! j = Some (AtPop x) → x = secret_id)
    ∧ (secrets_store w !! secret_id = None →
       c.2 = w ∧ ∀ j t, c.1 !! j = Some t → loser secret_id t) in
  kept c → kept (sched_step c i).
Proof.
  intros kept (Hcalls & Hframe & Hpop & Habsent).
  destruct (sched_step_cases c i) as [-> | (t & Hi & ->)]; [done |].
  assert (uuid_calls (thread_step t c.2).2 = uuid_calls c.2
          ∧ (∀ k, k ≠ secret_id →
                  secrets_store (thread_step t c.2).2 !! k = secrets_store c.2 !! k)
          ∧ (∀ x, (thread_step t c.2).1 = AtPop x → x = secret_id)
          ∧ (secrets_store w !! secret_id = None →
             (thread_step t c.2).2 = c.2 ∧ loser secret_id (thread_step t c.2).1))
    as (Hcalls' & Hframe' & Hpop' & Habsent').
  { destruct t as [x | secret | r]; cbn [thread_step store_pop].
    - assert (x = secret_id) as -> by by eapply Hpop.
      destruct (secrets_store c.2 !! secret_id) as [v|] eqn:Hv; cbn [fst snd].
      + split; [done |]. split; [by intros k Hk; apply lookup_delete_ne |].
        split; [done |]. intros Hnone. destruct (Habsent Hnone) as [Hw _].
        rewrite Hw in Hv. congruence.
      + split; [done |]. split; [done |]. split; [done |].
        intros _. split; [done |]. right. by left.
    - split; [done |]. split; [done |]. split; [done |].
      intros Hnone. split; [done |]. destruct (Habsent Hnone) as [_ Hlose].
      destruct (Hlose i _ Hi) as [H | [H | H]]; try discriminate.
      injection H as ->. right. by right.
    - split; [done |]. split; [done |]. split; [done |].
      intros Hnone. split; [done |]. destruct (Habsent Hnone) as [_ Hlose].
      by eapply Hlose. }
  assert (∀ j t', (<[i := (thread_step t c.2).1]> c.1) !! j = Some t' →
                  (j = i ∧ t' = (thread_step t c.2).1) ∨ c.1 !! j = Some t')
    as Hlookup.
  { intros j t' Hj. destruct (decide (i = j)) as [<- | Hij].
    - rewrite list_lookup_insert_eq in Hj by by eapply lookup_lt_Some.
      left. split; [done | congruence].
    - right. by rewrite list_lookup_insert_ne in Hj. }
  subst kept. cbn [fst snd]. split; [congruence |]. split.
  { intros k Hk. rewrite Hframe' by done. by apply Hframe. }
  split.
  { intros j x Hj. destruct (Hlookup _ _ Hj) as [[_ Hx] | Hold];
      [by apply Hpop' | by eapply Hpop]. }
  intros Hnone. destruct (Habsent Hnone) as [Hw Hlose].
  destruct (Habsent' Hnone) as [Hsame Hlose'].
  split; [congruence |]. intros j t' Hj.
  destruct (Hlookup _ _ Hj) as [[_ ->] | Hold]; [done | by eapply Hlose].
Qed.

(** X11. Racing retrievals of one name touch nothing else. Under any
    schedule of [N] threads on [retrieve_secret secret_id], the entries
    under other names and the number of identifiers generated stay as
    they were; and when nothing is stored under the name, the state does
    not change at all and no thread observes success. *)
Theorem race_frame (N : nat) (secret_id : string) (w : world) (sched : list nat) :
  let c := run_schedule sched (replicate N (AtPop secret_id), w) in
  uuid_calls c.2 = uuid_calls w
  ∧ (∀ k, k ≠ secret_id → secrets_store c.2 !! k = secrets_store w !! k)
  ∧ (secrets_store w !! secret_id = None →
     c.2 = w ∧ ∀ j t, c.1 !! j = Some t → observed_success t = false).
Proof.
  intros c. subst c.
  set (kept (c : list thread * world) :=
    uuid_calls c.2 = uuid_calls w
    ∧ (∀ k, k ≠ secret_id → secrets_store c.2 !! k = secrets_store w !! k)
    ∧ (∀ j x, c.1 !! j = Some (AtPop x) → x = secret_id)
    ∧ (secrets_store w !! secret_id = None →
       c.2 = w ∧ ∀ j t, c.1 !! j = Some t → loser secret_id t)).
  assert (∀ c, kept c → kept (run_schedule sched c)) as Hrun.
  { induction sched as [| i sched IH]; intros c Hc; [done |].
    unfold run_schedule in *. cbn [fold_left].
    apply IH, (sched_step_race_frame secret_id w c i Hc). }
  destruct (Hrun (replicate N (AtPop secret_id), w)) as (Hcalls & Hframe & _ & Habsent).
  { split; [done |]. split; [done |]. split.
    - intros j x Hj. apply lookup_replicate_1 in Hj as [[= ->] _]. done.
    - intros _. split; [done |]. intros j t Hj.
      apply lookup_replicate_1 in Hj as [-> _]. by left. }
  split; [done |]. split; [done |]. intros Hnone.
  destruct (Habsent Hnone) as [Hw Hlose]. split; [done |].
  intros j t Hj. eapply loser_no_success. by eapply Hlose.
Qed.
